(** * Pricing engine of the creative-services calculator

    A shallow embedding of the pricing logic of
    [src/components/PricingCalculator.tsx] (functions [getGraphicTotals],
    [computeGraphicPricing], [computeVideoPricing] and [calculatePricing])
    together with the JavaScript primitives they rely on ([Number],
    [Math.round], the arithmetic and comparison operators and the
    number-to-string conversion of template literals).

    ** Number model

    A JavaScript number is modelled by [num]: a rational, [NaN] or one of
    the two infinities.  Arithmetic on rationals is exact.  IEEE binary64
    rounding, overflow and the sign of zero are not represented.  On the
    inputs the form produces (decimal numerals of integers) every
    intermediate value of the engine is a multiple of one half, which
    binary64 represents exactly below 2^52.  The two products by the
    literals [1.1] and [0.2] are followed at once by [Math.round]; the
    exact products are multiples of 1/20, the binary64 values of both
    literals lie above the decimal ones by less than one part in 10^16, and
    [Math.round] sends a tie upwards, the side that excess is on, so the
    rounded integer is the same in both readings.  Strings are ASCII
    text.

    That agreement needs the counts to be of moderate size: binary64
    rounds integers above 2^53 and overflows to [Infinity] near 1.8e308,
    which the rationals do not.  The results that compare or bound prices
    are therefore stated for counts of at most [count_limit] (10^9), where
    every hour total and every price stays below 10^12, and the result on
    the conversion of numerals for integers of at most 2^53. *)

From Stdlib Require Import ZArith QArith Qround Lia Lqa.
From Stdlib Require Import Bool List Ascii String Decimal DecimalString DecimalN.
Import ListNotations.

Local Open Scope Z_scope.

(* ================================================================= *)
(** * JavaScript numbers *)

Module JS.

(** [Fin q] stands for the binary64 number of value [q].  The operations
    below compute on [q] exactly, so they describe the source for values
    that binary64 holds exactly and that stay below 2^53; the results that
    depend on it carry a bound on the counts. *)
Inductive num : Type :=
  | NaN
  | PInf
  | NInf
  | Fin (q : Q).

Definition inf (positive : bool) : num := if positive then PInf else NInf.

Definition of_Z (z : Z) : num := Fin (inject_Z z).

(** ** Arithmetic operators *)

Definition add (x y : num) : num :=
  match x, y with
  | NaN, _ | _, NaN => NaN
  | PInf, NInf | NInf, PInf => NaN
  | PInf, _ | _, PInf => PInf
  | NInf, _ | _, NInf => NInf
  | Fin a, Fin b => Fin (a + b)
  end.

Definition neg (x : num) : num :=
  match x with
  | NaN => NaN
  | PInf => NInf
  | NInf => PInf
  | Fin a => Fin (- a)
  end.

Definition sub (x y : num) : num := add x (neg y).

(** Product of an infinity of the given sign with [y]. *)
Definition mul_inf (positive : bool) (y : num) : num :=
  match y with
  | NaN => NaN
  | PInf => inf positive
  | NInf => inf (negb positive)
  | Fin b =>
      match Qnum b with
      | Z0 => NaN
      | Zpos _ => inf positive
      | Zneg _ => inf (negb positive)
      end
  end.

Definition mul (x y : num) : num :=
  match x, y with
  | NaN, _ => NaN
  | PInf, _ => mul_inf true y
  | NInf, _ => mul_inf false y
  | Fin _, NaN => NaN
  | Fin _, PInf => mul_inf true x
  | Fin _, NInf => mul_inf false x
  | Fin a, Fin b => Fin (a * b)
  end.

(** ** Comparison: [x > y].  Any comparison with [NaN] is false. *)

Definition gt (x y : num) : bool :=
  match x, y with
  | NaN, _ | _, NaN => false
  | PInf, PInf => false
  | PInf, _ => true
  | _, PInf => false
  | NInf, _ => false
  | Fin _, NInf => true
  | Fin a, Fin b => negb (Qle_bool a b)
  end.

(** ** [Math.round]: nearest integer, ties towards +infinity. *)

Definition Math_round (x : num) : num :=
  match x with
  | Fin a => of_Z (Qfloor (a + (1 # 2)))
  | _ => x
  end.

(** ** [Math.max] of two numbers. *)

Definition Math_max (x y : num) : num :=
  match x, y with
  | NaN, _ | _, NaN => NaN
  | _, _ => if gt y x then y else x
  end.

(** ** Equality of numbers as values: rationals are compared with [Qeq]. *)

Definition num_eq (x y : num) : Prop :=
  match x, y with
  | NaN, NaN | PInf, PInf | NInf, NInf => True
  | Fin a, Fin b => (a == b)%Q
  | _, _ => False
  end.

Definition num_eqb (x y : num) : bool :=
  match x, y with
  | NaN, NaN | PInf, PInf | NInf, NInf => true
  | Fin a, Fin b => Qeq_bool a b
  | _, _ => false
  end.

(** [x <= y] on numbers that are not [NaN]. *)
Definition num_le (x y : num) : Prop :=
  match x, y with
  | NaN, _ | _, NaN => False
  | NInf, _ | _, PInf => True
  | Fin a, Fin b => (a <= b)%Q
  | _, _ => False
  end.

Definition num_lt (x y : num) : Prop := gt y x = true.

(** A number that is an integer, and one that is a non-negative integer. *)

Definition is_integer (x : num) : bool :=
  match x with
  | Fin a => Qnum a mod Zpos (Qden a) =? 0
  | _ => false
  end.

Definition is_count (x : num) : bool :=
  match x with
  | Fin a => (0 <=? Qnum a) && (Qnum a mod Zpos (Qden a) =? 0)
  | _ => false
  end.

(* ----------------------------------------------------------------- *)
(** ** [Number(string)]: the StringNumericLiteral grammar on ASCII text *)

Definition is_ws (c : ascii) : bool :=
  let n := N_of_ascii c in
  ((9 <=? n) && (n <=? 13))%N || (n =? 32)%N.

Fixpoint ltrim (s : string) : string :=
  match s with
  | String c r => if is_ws c then ltrim r else s
  | EmptyString => EmptyString
  end.

Fixpoint rtrim (s : string) : string :=
  match s with
  | String c r =>
      match rtrim r with
      | EmptyString => if is_ws c then EmptyString else String c EmptyString
      | r' => String c r'
      end
  | EmptyString => EmptyString
  end.

Definition trim (s : string) : string := rtrim (ltrim s).

(** Value of a digit character in bases up to sixteen. *)
Definition digit_val (c : ascii) : option N :=
  let n := N_of_ascii c in
  if ((48 <=? n) && (n <=? 57))%N then Some (n - 48)%N
  else if ((97 <=? n) && (n <=? 102))%N then Some (n - 87)%N
  else if ((65 <=? n) && (n <=? 70))%N then Some (n - 55)%N
  else None.

Definition is_digit (c : ascii) : bool :=
  let n := N_of_ascii c in ((48 <=? n) && (n <=? 57))%N.

(** Longest prefix of decimal digits, and what follows it. *)
Fixpoint span_digits (s : string) : string * string :=
  match s with
  | String c r =>
      if is_digit c
      then let (d, t) := span_digits r in (String c d, t)
      else (EmptyString, s)
  | EmptyString => (EmptyString, EmptyString)
  end.


(** Value of a string of decimal digits (0 for the empty string). *)
Definition digits_value (d : string) : N :=
  match NilEmpty.uint_of_string d with
  | Some u => N.of_uint u
  | None => 0%N
  end.

(** Value of a non-empty string of digits of the given base. *)
Fixpoint radix_value (base : N) (acc : N) (s : string) : option N :=
  match s with
  | EmptyString => Some acc
  | String c r =>
      match digit_val c with
      | Some v => if (v <? base)%N then radix_value base (acc * base + v)%N r
                  else None
      | None => None
      end
  end.

Definition radix_literal (base : N) (s : string) : num :=
  match s with
  | EmptyString => NaN
  | _ => match radix_value base 0%N s with
         | Some v => of_Z (Z.of_N v)
         | None => NaN
         end
  end.

(** An optional leading sign: whether it is a minus, and what follows. *)
Definition split_sign (s : string) : bool * string :=
  match s with
  | String c r =>
      if (c =? "-")%char then (true, r)
      else if (c =? "+")%char then (false, r)
      else (false, s)
  | EmptyString => (false, s)
  end.

(** Exponent part: [e] or [E], an optional sign, at least one digit, and
    nothing after it.  No exponent part at all counts as exponent 0. *)
Definition parse_exponent (s : string) : option Z :=
  match s with
  | EmptyString => Some 0
  | String c r =>
      if (c =? "e")%char || (c =? "E")%char then
        let (negative, r1) := split_sign r in
        match span_digits r1 with
        | (String _ _ as d, EmptyString) =>
            let e := Z.of_N (digits_value d) in
            Some (if negative then - e else e)
        | _ => None
        end
      else None
  end.

(** [m * 10^e] as a reduced fraction. *)
Definition scale10 (m : N) (e : Z) : Q :=
  match e with
  | Zneg p => Qred (Z.of_N m # Pos.pow 10 p)
  | _ => inject_Z (Z.of_N m * 10 ^ e)
  end.

(** StrUnsignedDecimalLiteral without the [Infinity] case. *)
Definition unsigned_decimal (s : string) : option Q :=
  let (ip, r1) := span_digits s in
  let '(fp, r2) :=
    match r1 with
    | String c r' => if (c =? ".")%char then span_digits r'
                     else (EmptyString, r1)
    | EmptyString => (EmptyString, r1)
    end in
  match ip, fp with
  | EmptyString, EmptyString => None
  | _, _ =>
      match parse_exponent r2 with
      | Some e =>
          Some (scale10 (digits_value (ip ++ fp))
                        (e - Z.of_nat (String.length fp)))
      | None => None
      end
  end.

Definition signed_decimal (s : string) : num :=
  let (negative, r) := split_sign s in
  if (r =? "Infinity")%string then inf (negb negative)
  else match unsigned_decimal r with
       | Some q => Fin (if negative then Qred (- q) else q)
       | None => NaN
       end.

(** The base and the digits of a literal that starts with [0x], [0o] or
    [0b], in either case of the letter. *)
Definition radix_prefix (s : string) : option (N * string) :=
  match s with
  | String c1 (String c2 r) =>
      if (c1 =? "0")%char then
        if (c2 =? "x")%char || (c2 =? "X")%char then Some (16%N, r)
        else if (c2 =? "o")%char || (c2 =? "O")%char then Some (8%N, r)
        else if (c2 =? "b")%char || (c2 =? "B")%char then Some (2%N, r)
        else None
      else None
  | _ => None
  end.

Definition Number (s : string) : num :=
  let t := trim s in
  match t with
  | EmptyString => of_Z 0
  | _ => match radix_prefix t with
         | Some (base, r) => radix_literal base r
         | None => signed_decimal t
         end
  end.

(* ----------------------------------------------------------------- *)
(** ** Number to string, as a template literal does it

    The decimal expansion of the value, which is what JavaScript prints for
    an exactly represented number between 10^-6 and 10^21. *)

Definition string_of_N (n : N) : string :=
  NilZero.string_of_uint (N.to_uint n).

Fixpoint frac_digits (fuel : nat) (rem den : Z) : string :=
  match fuel with
  | O => EmptyString
  | S k =>
      if rem =? 0 then EmptyString
      else String (ascii_of_N (48 + Z.to_N (rem * 10 / den)))
                  (frac_digits k (rem * 10 mod den) den)
  end.

Definition ToString (x : num) : string :=
  match x with
  | NaN => "NaN"
  | PInf => "Infinity"
  | NInf => "-Infinity"
  | Fin a =>
      let d := Zpos (Qden a) in
      let m := Z.abs (Qnum a) in
      let int_part := string_of_N (Z.to_N (m / d)) in
      let frac_part :=
        if m mod d =? 0 then EmptyString
        else String "." (frac_digits (Pos.size_nat (Qden a)) (m mod d) d) in
      let body := (int_part ++ frac_part)%string in
      if Qnum a <? 0 then String "-" body else body
  end.

End JS.

(* ================================================================= *)
(** * The pricing engine *)

Module Pricing.

Import JS.

Declare Scope js_scope.
Delimit Scope js_scope with js.
Infix "+" := add : js_scope.
Infix "-" := sub : js_scope.
Infix "*" := mul : js_scope.
Infix ">" := gt : js_scope.

(** Number literals of the source. *)
Definition lit (q : Q) : num := Fin q.

(** ** Data model *)

(** The questionnaire state.  The count fields hold the raw text of the
    form inputs; [None] stands for a property that is absent at run time
    (it reads as [undefined]), which the [|| 0] of the source guards
    against together with the empty string. *)
Record PricingData : Type := {
  serviceType : string;
  smDesigns : option string;
  banners : option string;
  brochures : option string;
  illustrations : option string;
  packaging : option string;
  otherDesignType : string;
  bilingual : bool;
  videoBasic : option string;
  videoMid : option string;
  videoAdvanced : option string;
  videoSubtitles : bool;
  videoNeedsStock : bool;
  videoNeedsScripting : bool;
  name : string;
  company : string;
  email : string;
  phone : string
}.

Record Breakdown : Type := {
  basePrice : num;
  volumeAdjustment : num;
  complexityAdjustment : num;
  bilingualBonus : num;
  addOns : num
}.

Record PricingResult : Type := {
  monthlyPrice : num;
  breakdown : Breakdown;
  includes : list string;
  estimatedHours : num
}.

(** The initial state of the form. *)
Definition initialData : PricingData := {|
  serviceType := "";
  smDesigns := Some "0"%string;
  banners := Some "0"%string;
  brochures := Some "0"%string;
  illustrations := Some "0"%string;
  packaging := Some "0"%string;
  otherDesignType := "";
  bilingual := false;
  videoBasic := Some "0"%string;
  videoMid := Some "0"%string;
  videoAdvanced := Some "0"%string;
  videoSubtitles := false;
  videoNeedsStock := false;
  videoNeedsScripting := false;
  name := "";
  company := "";
  email := "";
  phone := ""
|}.

(** ** [Number(field || 0)]

    An absent field and the empty string are falsy, so [0] is converted;
    any other string is converted itself. *)
Definition numberOr0 (field : option string) : num :=
  match field with
  | None | Some EmptyString => lit 0
  | Some s => Number s
  end.

(** ** [getGraphicTotals] *)

Record GraphicTotals : Type := {
  gt_sm : num;
  gt_banners : num;
  gt_brochures : num;
  gt_illustrations : num;
  gt_packaging : num;
  totalCount : num;
  totalHours : num
}.

Definition getGraphicTotals (data : PricingData) : GraphicTotals :=
  let sm := numberOr0 (smDesigns data) in
  let banners := numberOr0 (banners data) in
  let brochures := numberOr0 (brochures data) in
  let illustrations := numberOr0 (illustrations data) in
  let packaging := numberOr0 (packaging data) in
  {| gt_sm := sm;
     gt_banners := banners;
     gt_brochures := brochures;
     gt_illustrations := illustrations;
     gt_packaging := packaging;
     totalCount := (sm + banners + brochures + illustrations + packaging)%js;
     totalHours := (sm * lit 1 + banners * lit 1.5 + brochures * lit 5
                    + illustrations * lit 3 + packaging * lit 5)%js |}.

(** ** [computeGraphicPricing] *)

Record Priced : Type := { price : num; hours : num }.

Definition Base_Price : num := lit 499.
Definition Base_Hours : num := lit 55.
Definition Extra_Hourly_Rate : num := lit 9.

(** The value of the local [finalPrice] when [computeGraphicPricing]
    reaches its [return], before [Math.round] is applied. *)
Definition graphicFinalPrice (data : PricingData) : num :=
  let totalHours := totalHours (getGraphicTotals data) in
  let finalPrice := Base_Price in
  let finalPrice :=
    if (totalHours > Base_Hours)%js then
      let extraHours := (totalHours - Base_Hours)%js in
      (finalPrice + extraHours * Extra_Hourly_Rate)%js
    else finalPrice in
  if bilingual data then (finalPrice * lit 1.1)%js else finalPrice.

Definition computeGraphicPricing (data : PricingData) : Priced :=
  {| price := Math_round (graphicFinalPrice data);
     hours := totalHours (getGraphicTotals data) |}.

(** ** [computeVideoPricing]

    Its local constants [basePrice], [baseHours] and [extraRate] carry the
    prefix [video] here, [basePrice] being a field of the breakdown too. *)

Definition videoBasePrice : num := lit 699.
Definition videoBaseHours : num := lit 55.
Definition videoExtraRate : num := lit 12.

(** [totalVideos], computed alike in [computeVideoPricing] and in
    [calculatePricing]. *)
Definition totalVideos (data : PricingData) : num :=
  (numberOr0 (videoBasic data) + numberOr0 (videoMid data)
   + numberOr0 (videoAdvanced data))%js.

(** The local [totalHours] of [computeVideoPricing] after the add-on
    time has been added. *)
Definition videoTotalHours (data : PricingData) : num :=
  let basic := numberOr0 (videoBasic data) in
  let mid := numberOr0 (videoMid data) in
  let adv := numberOr0 (videoAdvanced data) in
  let totalHours := (basic * lit 2.5 + mid * lit 5 + adv * lit 11)%js in
  let totalVideos := (basic + mid + adv)%js in
  let totalHours :=
    if videoNeedsScripting data then (totalHours + totalVideos * lit 1)%js
    else totalHours in
  if videoNeedsStock data then (totalHours + totalVideos * lit 0.5)%js
  else totalHours.

(** The local [finalPrice] of [computeVideoPricing] before rounding. *)
Definition videoFinalPrice (data : PricingData) : num :=
  let totalHours := videoTotalHours data in
  let finalPrice := videoBasePrice in
  if (totalHours > videoBaseHours)%js then
    let extraHours := (totalHours - videoBaseHours)%js in
    (finalPrice + extraHours * videoExtraRate)%js
  else finalPrice.

Definition computeVideoPricing (data : PricingData) : Priced :=
  {| price := Math_round (videoFinalPrice data);
     hours := videoTotalHours data |}.

(** ** [calculatePricing] *)

Definition zeroResult : PricingResult := {|
  monthlyPrice := lit 0;
  breakdown := {| basePrice := lit 0;
                  volumeAdjustment := lit 0;
                  complexityAdjustment := lit 0;
                  bilingualBonus := lit 0;
                  addOns := lit 0 |};
  includes := [];
  estimatedHours := lit 0
|}.

(** [xs.push(s)] guarded by a condition. *)
Definition push_if (c : bool) (s : string) (xs : list string) : list string :=
  if c then xs ++ [s] else xs.

Definition videosLine (data : PricingData) : string :=
  (ToString (totalVideos data)
   ++ " videos/month (mix of basic, mid-level, advanced)")%string.

Definition calculatePricing (data : PricingData) : PricingResult :=
  let result := zeroResult in
  if (serviceType data =? "graphic")%string then
    let g := computeGraphicPricing data in
    let inc := includes result ++ ["Graphic Design Package"%string] in
    let inc := push_if (bilingual data) "Arabic & English designs" inc in
    {| monthlyPrice := price g;
       breakdown := breakdown result;
       includes := inc;
       estimatedHours := hours g |}
  else if (serviceType data =? "video")%string then
    let v := computeVideoPricing data in
    let inc := includes result ++ ["Video Editing Package"%string] in
    let inc := push_if (totalVideos data > lit 0)%js (videosLine data) inc in
    let inc := push_if (videoSubtitles data) "Subtitles included" inc in
    let inc := push_if (videoNeedsScripting data)
                 "Concept, scripting & planning support" inc in
    let inc := push_if (videoNeedsStock data)
                 "Premium stock footage/music licensing" inc in
    {| monthlyPrice := price v;
       breakdown := breakdown result;
       includes := inc;
       estimatedHours := hours v |}
  else if (serviceType data =? "both")%string then
    let g := computeGraphicPricing data in
    let v := computeVideoPricing data in
    let subtotal := (price g + price v)%js in
    let discount := Math_round (subtotal * lit 0.2)%js in
    let inc := includes result
               ++ ["Complete Creative Package: Design + Video"%string] in
    let inc := inc ++ ["Bundle discount applied (20%)"%string] in
    let inc := push_if (bilingual data)
                 "Arabic & English designs included" inc in
    let inc := push_if (totalVideos data > lit 0)%js (videosLine data) inc in
    let inc := push_if (videoSubtitles data)
                 "Subtitles included for videos" inc in
    let inc := push_if (videoNeedsScripting data)
                 "Concept, scripting & planning support" inc in
    let inc := push_if (videoNeedsStock data)
                 "Premium stock footage/music licensing" inc in
    {| monthlyPrice := (subtotal - discount)%js;
       breakdown := breakdown result;
       includes := inc;
       estimatedHours := (hours g + hours v)%js |}
  else result.

(** ** Form updates: [setData({ ...data, field: value })] *)

Definition set_serviceType (service : string) (d : PricingData) : PricingData :=
  {| serviceType := service;
     smDesigns := smDesigns d; banners := banners d;
     brochures := brochures d; illustrations := illustrations d;
     packaging := packaging d; otherDesignType := otherDesignType d;
     bilingual := bilingual d;
     videoBasic := videoBasic d; videoMid := videoMid d;
     videoAdvanced := videoAdvanced d; videoSubtitles := videoSubtitles d;
     videoNeedsStock := videoNeedsStock d;
     videoNeedsScripting := videoNeedsScripting d;
     name := name d; company := company d; email := email d;
     phone := phone d |}.

Definition set_videoSubtitles (b : bool) (d : PricingData) : PricingData :=
  {| serviceType := serviceType d;
     smDesigns := smDesigns d; banners := banners d;
     brochures := brochures d; illustrations := illustrations d;
     packaging := packaging d; otherDesignType := otherDesignType d;
     bilingual := bilingual d;
     videoBasic := videoBasic d; videoMid := videoMid d;
     videoAdvanced := videoAdvanced d; videoSubtitles := b;
     videoNeedsStock := videoNeedsStock d;
     videoNeedsScripting := videoNeedsScripting d;
     name := name d; company := company d; email := email d;
     phone := phone d |}.

(** The eight item-count inputs of the form. *)
Inductive CountField : Type :=
  | SmDesigns | Banners | Brochures | Illustrations | Packaging
  | VideoBasic | VideoMid | VideoAdvanced.

Definition get_count (f : CountField) (d : PricingData) : option string :=
  match f with
  | SmDesigns => smDesigns d
  | Banners => banners d
  | Brochures => brochures d
  | Illustrations => illustrations d
  | Packaging => packaging d
  | VideoBasic => videoBasic d
  | VideoMid => videoMid d
  | VideoAdvanced => videoAdvanced d
  end.

Definition set_count (f : CountField) (v : option string) (d : PricingData)
  : PricingData :=
  let pick g old := match f, g with
                    | SmDesigns, SmDesigns | Banners, Banners
                    | Brochures, Brochures | Illustrations, Illustrations
                    | Packaging, Packaging | VideoBasic, VideoBasic
                    | VideoMid, VideoMid | VideoAdvanced, VideoAdvanced => v
                    | _, _ => old
                    end in
  {| serviceType := serviceType d;
     smDesigns := pick SmDesigns (smDesigns d);
     banners := pick Banners (banners d);
     brochures := pick Brochures (brochures d);
     illustrations := pick Illustrations (illustrations d);
     packaging := pick Packaging (packaging d);
     otherDesignType := otherDesignType d;
     bilingual := bilingual d;
     videoBasic := pick VideoBasic (videoBasic d);
     videoMid := pick VideoMid (videoMid d);
     videoAdvanced := pick VideoAdvanced (videoAdvanced d);
     videoSubtitles := videoSubtitles d;
     videoNeedsStock := videoNeedsStock d;
     videoNeedsScripting := videoNeedsScripting d;
     name := name d; company := company d; email := email d;
     phone := phone d |}.

(** ** Valid requests *)

(** The service type is one of the three categories. *)
Definition valid_service (d : PricingData) : bool :=
  (serviceType d =? "graphic")%string
  || (serviceType d =? "video")%string
  || (serviceType d =? "both")%string.

(** Every item count is a non-negative integer once converted. *)
Definition valid_graphic_counts (d : PricingData) : bool :=
  is_count (numberOr0 (smDesigns d))
  && is_count (numberOr0 (banners d))
  && is_count (numberOr0 (brochures d))
  && is_count (numberOr0 (illustrations d))
  && is_count (numberOr0 (packaging d)).

Definition valid_video_counts (d : PricingData) : bool :=
  is_count (numberOr0 (videoBasic d))
  && is_count (numberOr0 (videoMid d))
  && is_count (numberOr0 (videoAdvanced d)).

Definition valid_counts (d : PricingData) : bool :=
  valid_graphic_counts d && valid_video_counts d.

Definition valid_request (d : PricingData) : bool :=
  valid_service d && valid_counts d.

(** The largest count for which the prices are compared: with counts up
    to it every intermediate value of the engine is far below 2^52, so
    that binary64 holds the hours exactly and rounds the products by 1.1
    and 0.2 to the same integer as the exact products. *)
Definition count_limit : num := lit 1000000000.

(** No item count converts to more than [count_limit]. *)
Definition counts_within_limit (d : PricingData) : bool :=
  forallb (fun f => negb (numberOr0 (get_count f d) > count_limit)%js)
    [SmDesigns; Banners; Brochures; Illustrations; Packaging;
     VideoBasic; VideoMid; VideoAdvanced].

(** Every item count converts to zero. *)
Definition all_counts_zero (d : PricingData) : bool :=
  forallb (fun f => num_eqb (numberOr0 (get_count f d)) (lit 0))
    [SmDesigns; Banners; Brochures; Illustrations; Packaging;
     VideoBasic; VideoMid; VideoAdvanced].


Definition is_NaN (x : num) : bool :=
  match x with NaN => true | _ => false end.

(** Sum of the five components of a breakdown. *)
Definition breakdown_sum (b : Breakdown) : num :=
  (basePrice b + volumeAdjustment b + complexityAdjustment b
   + bilingualBonus b + addOns b)%js.

(** The base price a category starts from: the constant of its branch, and
    for the bundle the two constants combined and discounted the way
    [calculatePricing] discounts a subtotal. *)
Definition bundleBase : num :=
  let subtotal := (Base_Price + videoBasePrice)%js in
  (subtotal - Math_round (subtotal * lit 0.2))%js.

Definition categoryBase (service : string) : num :=
  if (service =? "graphic")%string then Base_Price
  else if (service =? "video")%string then videoBasePrice
  else if (service =? "both")%string then bundleBase
  else lit 0.

(** The base price of the graphic branch with the bilingual surcharge
    applied to it and rounded. *)
Definition graphicFloor (bil : bool) : num :=
  Math_round (if bil then (Base_Price * lit 1.1)%js else Base_Price).

(** ** Sample requests *)

Definition request (service : string) (sm ban bro ill pack : string)
  (bil : bool) (basic mid adv : string) (subs stock script : bool)
  : PricingData :=
  {| serviceType := service;
     smDesigns := Some sm; banners := Some ban; brochures := Some bro;
     illustrations := Some ill; packaging := Some pack;
     otherDesignType := ""; bilingual := bil;
     videoBasic := Some basic; videoMid := Some mid;
     videoAdvanced := Some adv; videoSubtitles := subs;
     videoNeedsStock := stock; videoNeedsScripting := script;
     name := "Lead"; company := "Company"; email := "lead@example.com";
     phone := "" |}.

(** A video request with 15 basic edits and nothing else. *)
Definition video15 : PricingData :=
  request "video" "0" "0" "0" "0" "0" false "15" "0" "0" false false false.

(** A graphic request with every count at zero. *)
Definition graphicZero : PricingData :=
  request "graphic" "0" "0" "0" "0" "0" false "0" "0" "0" false false false.


(** A bundle request with counts above both allotments. *)
Definition bundleBusy : PricingData :=
  request "both" "60" "3" "" "0" "1" true "15" "2" "1" true true false.

End Pricing.

(* ================================================================= *)
(** * The formulas read over the rationals

    When every count converts to a finite number the engine computes with
    rationals only.  The definitions below restate the bodies of the
    pricing functions on [Q]; the lemmas of the next part show that the
    engine computes exactly these values. *)

Module Exact.

Import JS Pricing.

Local Open Scope Q_scope.

(** The rational held by a finite number. *)
Definition countQ (x : num) : Q :=
  match x with Fin q => q | _ => 0 end.

Definition fieldQ (f : CountField) (d : PricingData) : Q :=
  countQ (numberOr0 (get_count f d)).

Definition graphicHoursQ (d : PricingData) : Q :=
  fieldQ SmDesigns d * 1 + fieldQ Banners d * 1.5 + fieldQ Brochures d * 5
  + fieldQ Illustrations d * 3 + fieldQ Packaging d * 5.

Definition totalVideosQ (d : PricingData) : Q :=
  fieldQ VideoBasic d + fieldQ VideoMid d + fieldQ VideoAdvanced d.

Definition videoHoursQ (d : PricingData) : Q :=
  let h := fieldQ VideoBasic d * 2.5 + fieldQ VideoMid d * 5
           + fieldQ VideoAdvanced d * 11 in
  let h := if videoNeedsScripting d then h + totalVideosQ d * 1 else h in
  if videoNeedsStock d then h + totalVideosQ d * 0.5 else h.

Definition graphicFinalQ (h : Q) (bil : bool) : Q :=
  let p := if negb (Qle_bool h 55) then 499 + (h - 55) * 9 else 499 in
  if bil then p * 1.1 else p.

Definition videoFinalQ (h : Q) : Q :=
  if negb (Qle_bool h 55) then 699 + (h - 55) * 12 else 699.

(** [Math.round] on a rational. *)
Definition roundZ (q : Q) : Z := Qfloor (q + (1 # 2)).

Definition graphicPriceZ (d : PricingData) : Z :=
  roundZ (graphicFinalQ (graphicHoursQ d) (bilingual d)).

Definition videoPriceZ (d : PricingData) : Z :=
  roundZ (videoFinalQ (videoHoursQ d)).

(** A subtotal less its 20% discount, on integers. *)
Definition bundleZ (s : Z) : Z := (s - (2 * s + 5) / 10)%Z.

(** The monthly price of a request as an integer. *)
Definition monthlyZ (d : PricingData) : Z :=
  if (serviceType d =? "graphic")%string then graphicPriceZ d
  else if (serviceType d =? "video")%string then videoPriceZ d
  else if (serviceType d =? "both")%string
       then bundleZ (graphicPriceZ d + videoPriceZ d)
  else 0%Z.

End Exact.

Import JS Pricing.

Local Open Scope string_scope.

(* ================================================================= *)
(** * Results that hold for every request *)

Section AnyRequest.

Variable d : PricingData.

Lemma breakdown_untouched : breakdown (calculatePricing d) = breakdown zeroResult.
Proof.
  unfold calculatePricing.
  destruct (serviceType d =? "graphic"); [reflexivity|].
  destruct (serviceType d =? "video"); [reflexivity|].
  destruct (serviceType d =? "both"); reflexivity.
Qed.

Lemma calculatePricing_graphic :
  serviceType d = "graphic" ->
  monthlyPrice (calculatePricing d) = price (computeGraphicPricing d)
  /\ estimatedHours (calculatePricing d) = hours (computeGraphicPricing d).
Proof.
  intros E. unfold calculatePricing. rewrite E. simpl. split; reflexivity.
Qed.

Lemma calculatePricing_video :
  serviceType d = "video" ->
  monthlyPrice (calculatePricing d) = price (computeVideoPricing d)
  /\ estimatedHours (calculatePricing d) = hours (computeVideoPricing d).
Proof.
  intros E. unfold calculatePricing. rewrite E. simpl. split; reflexivity.
Qed.

Lemma calculatePricing_both :
  serviceType d = "both" ->
  monthlyPrice (calculatePricing d)
  = (let subtotal := (price (computeGraphicPricing d)
                      + price (computeVideoPricing d))%js in
     subtotal - Math_round (subtotal * lit 0.2))%js
  /\ estimatedHours (calculatePricing d)
     = (hours (computeGraphicPricing d) + hours (computeVideoPricing d))%js.
Proof.
  intros E. unfold calculatePricing. rewrite E. simpl. split; reflexivity.
Qed.

Lemma valid_service_cases :
  valid_service d = true ->
  serviceType d = "graphic" \/ serviceType d = "video" \/ serviceType d = "both".
Proof.
  unfold valid_service. rewrite !orb_true_iff, !String.eqb_eq. tauto.
Qed.

End AnyRequest.

(** C6.  A request whose service type is none of graphic, video and both
    gets the zero-valued result: price 0, every breakdown component 0, no
    included line, 0 estimated hours.  [calculatePricing] is a total
    function on requests whatever text the fields hold, so no input makes
    the engine fail. *)
Theorem unselected_service_zero_result (d : PricingData) :
  valid_service d = false ->
  calculatePricing d = zeroResult
  /\ monthlyPrice (calculatePricing d) = lit 0
  /\ breakdown_sum (breakdown (calculatePricing d)) = lit 0
  /\ includes (calculatePricing d) = []
  /\ estimatedHours (calculatePricing d) = lit 0.
Proof.
  unfold valid_service. rewrite !orb_false_iff. intros [[Hg Hv] Hb].
  assert (E : calculatePricing d = zeroResult).
  { unfold calculatePricing. rewrite Hg, Hv, Hb. reflexivity. }
  rewrite E. repeat split; reflexivity.
Qed.

Lemma unselected_service_zero_result_witness :
  valid_service initialData = false
  /\ calculatePricing initialData = zeroResult.
Proof.
  split; [reflexivity|].
  apply (unselected_service_zero_result initialData). reflexivity.
Defined.

(** C10.  Switching the subtitles flag changes neither the monthly price
    nor the estimated hours (nor the breakdown) of any request; only the
    list of included lines can differ. *)
Theorem subtitles_do_not_affect_price (d : PricingData) (b : bool) :
  monthlyPrice (calculatePricing (set_videoSubtitles b d))
  = monthlyPrice (calculatePricing d)
  /\ estimatedHours (calculatePricing (set_videoSubtitles b d))
     = estimatedHours (calculatePricing d)
  /\ breakdown (calculatePricing (set_videoSubtitles b d))
     = breakdown (calculatePricing d).
Proof.
  unfold calculatePricing. cbn [set_videoSubtitles serviceType].
  destruct (serviceType d =? "graphic"); [repeat split|].
  destruct (serviceType d =? "video"); [repeat split|].
  destruct (serviceType d =? "both"); repeat split.
Qed.

(** C1 (the code departs from it).  On the graphic request with every
    count at zero the price is 499 while the five breakdown components are
    all 0 and so is their sum. *)
Theorem breakdown_sum_differs_from_price :
  monthlyPrice (calculatePricing graphicZero) = lit 499
  /\ breakdown (calculatePricing graphicZero) = breakdown zeroResult
  /\ breakdown_sum (breakdown (calculatePricing graphicZero)) = lit 0
  /\ num_eqb (breakdown_sum (breakdown (calculatePricing graphicZero)))
             (monthlyPrice (calculatePricing graphicZero)) = false.
Proof. repeat split; reflexivity. Qed.

(* ================================================================= *)
(** * The engine computes the rational formulas *)

Import Exact.

Section NumberFacts.

Local Open Scope Q_scope.

Lemma is_count_finite (x : num) :
  is_count x = true -> x = Fin (countQ x) /\ 0 <= countQ x.
Proof.
  destruct x as [| | |[n m]]; try discriminate. simpl.
  rewrite andb_true_iff, Z.leb_le. intros [Hn _]. split; [reflexivity|].
  unfold Qle. simpl. lia.
Qed.

Lemma is_count_integer (x : num) :
  is_count x = true -> exists n : Z, (0 <= n)%Z /\ countQ x == inject_Z n.
Proof.
  destruct x as [| | |[n m]]; try discriminate. simpl.
  rewrite andb_true_iff, Z.leb_le, Z.eqb_eq. intros [Hn Hm].
  exists (n / Zpos m)%Z. split.
  - apply Z.div_pos; lia.
  - unfold Qeq, inject_Z. simpl.
    pose proof (Z.div_mod n (Zpos m) ltac:(lia)) as E. rewrite Hm in E.
    lia.
Qed.

Lemma gt_Fin (a b : Q) : gt (Fin a) (Fin b) = negb (Qle_bool a b).
Proof. reflexivity. Qed.

Lemma gt_Fin_true (a b : Q) : gt (Fin a) (Fin b) = true <-> b < a.
Proof.
  rewrite gt_Fin, negb_true_iff, <- not_true_iff_false, Qle_bool_iff.
  split; intro H; [apply Qnot_le_lt | apply Qlt_not_le]; exact H.
Qed.

Lemma gt_Fin_false (a b : Q) : gt (Fin a) (Fin b) = false <-> a <= b.
Proof. rewrite gt_Fin, negb_false_iff. apply Qle_bool_iff. Qed.

Lemma Qle_bool_false (a b : Q) : Qle_bool a b = false <-> b < a.
Proof.
  rewrite <- not_true_iff_false, Qle_bool_iff.
  split; intro H; [apply Qnot_le_lt | apply Qlt_not_le]; exact H.
Qed.

Lemma roundZ_mono (a b : Q) : a <= b -> (roundZ a <= roundZ b)%Z.
Proof. intro H. apply Qfloor_resp_le. lra. Qed.

Lemma roundZ_inject (z : Z) : roundZ (inject_Z z) = z.
Proof.
  unfold roundZ. apply Z.le_antisymm.
  - apply Z.lt_succ_r. rewrite Zlt_Qlt.
    apply Qle_lt_trans with (inject_Z z + (1 # 2)); [apply Qfloor_le|].
    unfold Z.succ. rewrite inject_Z_plus. change (inject_Z 1) with 1. lra.
  - rewrite <- (Qfloor_Z z) at 1. apply Qfloor_resp_le. lra.
Qed.

Lemma roundZ_comp (a b : Q) : a == b -> roundZ a = roundZ b.
Proof. intro H. unfold roundZ. apply Qfloor_comp. rewrite H. reflexivity. Qed.

(** The discount of an integer subtotal. *)
Lemma round_fifth (s : Z) : roundZ (inject_Z s * 0.2) = ((2 * s + 5) / 10)%Z.
Proof.
  unfold roundZ.
  rewrite (Qfloor_comp _ ((2 * s + 5) # 10)); [reflexivity|].
  unfold Qeq, Qplus, Qmult, inject_Z. cbn [Qnum Qden]. lia.
Qed.

Lemma bundleZ_mono (s t : Z) : (s <= t)%Z -> (bundleZ s <= bundleZ t)%Z.
Proof.
  intro H. unfold bundleZ.
  pose proof (Z.div_mod (2 * s + 5) 10 ltac:(lia)).
  pose proof (Z.mod_pos_bound (2 * s + 5) 10 ltac:(lia)).
  pose proof (Z.div_mod (2 * t + 5) 10 ltac:(lia)).
  pose proof (Z.mod_pos_bound (2 * t + 5) 10 ltac:(lia)).
  lia.
Qed.

Lemma bundleZ_saves (s : Z) : (3 <= s)%Z -> (bundleZ s < s)%Z.
Proof.
  intro H. unfold bundleZ.
  pose proof (Z.div_mod (2 * s + 5) 10 ltac:(lia)).
  pose proof (Z.mod_pos_bound (2 * s + 5) 10 ltac:(lia)).
  lia.
Qed.

End NumberFacts.

(** Case analysis on the two allotment tests. *)
Ltac allotment_cases :=
  repeat match goal with
  | |- context [Qle_bool ?h ?b] =>
      let E := fresh "E" in
      destruct (Qle_bool h b) eqn:E;
      [apply Qle_bool_iff in E | apply Qle_bool_false in E]
  end.

Section FormulaFacts.

Local Open Scope Q_scope.

Lemma graphicFinalQ_mono (h h' : Q) (b : bool) :
  h <= h' -> graphicFinalQ h b <= graphicFinalQ h' b.
Proof.
  intro H. unfold graphicFinalQ. allotment_cases; destruct b; cbn [negb]; lra.
Qed.

Lemma graphicFinalQ_floor (h : Q) (b : bool) :
  (if b then 499 * 1.1 else 499) <= graphicFinalQ h b.
Proof.
  unfold graphicFinalQ. allotment_cases; destruct b; cbn [negb]; lra.
Qed.

Lemma graphicFinalQ_within (h : Q) (b : bool) :
  h <= 55 -> graphicFinalQ h b = if b then 499 * 1.1 else 499.
Proof.
  intro H. unfold graphicFinalQ.
  destruct (Qle_bool h 55) eqn:E; [reflexivity|].
  apply Qle_bool_false in E. lra.
Qed.

Lemma graphicFinalQ_over (h : Q) (b : bool) :
  55 < h ->
  graphicFinalQ h b
  = if b then (499 + (h - 55) * 9) * 1.1 else 499 + (h - 55) * 9.
Proof.
  intro H. unfold graphicFinalQ.
  destruct (Qle_bool h 55) eqn:E; [|reflexivity].
  apply Qle_bool_iff in E. lra.
Qed.

Lemma videoFinalQ_mono (h h' : Q) : h <= h' -> videoFinalQ h <= videoFinalQ h'.
Proof.
  intro H. unfold videoFinalQ. allotment_cases; cbn [negb]; lra.
Qed.

Lemma videoFinalQ_floor (h : Q) : 699 <= videoFinalQ h.
Proof. unfold videoFinalQ. allotment_cases; cbn [negb]; lra. Qed.

Lemma videoFinalQ_within (h : Q) : h <= 55 -> videoFinalQ h = 699.
Proof.
  intro H. unfold videoFinalQ.
  destruct (Qle_bool h 55) eqn:E; [reflexivity|].
  apply Qle_bool_false in E. lra.
Qed.

Lemma videoFinalQ_over (h : Q) :
  55 < h -> videoFinalQ h = 699 + (h - 55) * 12.
Proof.
  intro H. unfold videoFinalQ.
  destruct (Qle_bool h 55) eqn:E; [|reflexivity].
  apply Qle_bool_iff in E. lra.
Qed.

Lemma graphicPriceZ_floor (d : PricingData) :
  (499 <= graphicPriceZ d)%Z
  /\ (bilingual d = true -> 549 <= graphicPriceZ d)%Z.
Proof.
  unfold graphicPriceZ.
  pose proof (graphicFinalQ_floor (graphicHoursQ d) (bilingual d)) as F.
  split.
  - rewrite <- (roundZ_inject 499). apply roundZ_mono.
    destruct (bilingual d); change (inject_Z 499) with 499; lra.
  - intro B. rewrite B in *.
    change 549%Z with (roundZ (499 * 1.1)). apply roundZ_mono. exact F.
Qed.

Lemma videoPriceZ_floor (d : PricingData) : (699 <= videoPriceZ d)%Z.
Proof.
  unfold videoPriceZ. rewrite <- (roundZ_inject 699). apply roundZ_mono.
  change (inject_Z 699) with 699. apply videoFinalQ_floor.
Qed.

End FormulaFacts.

Section EngineIsExact.

Variable d : PricingData.
Hypothesis V : valid_counts d = true.

Lemma valid_counts_fields (f : CountField) :
  is_count (numberOr0 (get_count f d)) = true.
Proof.
  revert V. unfold valid_counts, valid_graphic_counts, valid_video_counts.
  rewrite !andb_true_iff. destruct f; cbn [get_count]; tauto.
Qed.

Lemma field_finite (f : CountField) :
  numberOr0 (get_count f d) = Fin (fieldQ f d).
Proof. apply is_count_finite, valid_counts_fields. Qed.

Lemma field_nonneg (f : CountField) : (0 <= fieldQ f d)%Q.
Proof. apply is_count_finite, valid_counts_fields. Qed.

Lemma field_integer (f : CountField) :
  exists n : Z, (0 <= n)%Z /\ (fieldQ f d == inject_Z n)%Q.
Proof. apply is_count_integer, valid_counts_fields. Qed.

(** Replace the conversion of a field by the finite number it yields. *)
Ltac finite f :=
  let H := fresh in
  pose proof (field_finite f) as H; cbn [get_count] in H; rewrite !H; clear H.

Lemma totalHours_exact :
  totalHours (getGraphicTotals d) = Fin (graphicHoursQ d).
Proof.
  unfold getGraphicTotals. cbn [totalHours].
  finite SmDesigns. finite Banners. finite Brochures.
  finite Illustrations. finite Packaging.
  reflexivity.
Qed.

Lemma totalVideos_exact : totalVideos d = Fin (totalVideosQ d).
Proof.
  unfold totalVideos.
  finite VideoBasic. finite VideoMid. finite VideoAdvanced.
  reflexivity.
Qed.

Lemma videoTotalHours_exact : videoTotalHours d = Fin (videoHoursQ d).
Proof.
  unfold videoTotalHours, videoHoursQ.
  finite VideoBasic. finite VideoMid. finite VideoAdvanced.
  destruct (videoNeedsScripting d), (videoNeedsStock d); reflexivity.
Qed.

Lemma graphicFinalPrice_exact :
  graphicFinalPrice d = Fin (graphicFinalQ (graphicHoursQ d) (bilingual d)).
Proof.
  unfold graphicFinalPrice, graphicFinalQ. rewrite totalHours_exact.
  unfold Base_Hours, lit. rewrite gt_Fin.
  destruct (negb (Qle_bool (graphicHoursQ d) 55)), (bilingual d); reflexivity.
Qed.

Lemma videoFinalPrice_exact :
  videoFinalPrice d = Fin (videoFinalQ (videoHoursQ d)).
Proof.
  unfold videoFinalPrice, videoFinalQ. rewrite videoTotalHours_exact.
  unfold videoBaseHours, lit. rewrite gt_Fin.
  destruct (negb (Qle_bool (videoHoursQ d) 55)); reflexivity.
Qed.

Lemma graphic_price_exact :
  price (computeGraphicPricing d) = of_Z (graphicPriceZ d).
Proof.
  unfold computeGraphicPricing. cbn [price].
  rewrite graphicFinalPrice_exact. reflexivity.
Qed.

Lemma video_price_exact :
  price (computeVideoPricing d) = of_Z (videoPriceZ d).
Proof.
  unfold computeVideoPricing. cbn [price].
  rewrite videoFinalPrice_exact. reflexivity.
Qed.

(** The bundle price: the subtotal of two integer prices less its
    rounded fifth. *)
Lemma bundle_exact (a b : Z) :
  num_eq (let subtotal := (of_Z a + of_Z b)%js in
          subtotal - Math_round (subtotal * lit 0.2))%js
         (of_Z (bundleZ (a + b))).
Proof.
  cbn [add sub mul neg of_Z lit Math_round num_eq].
  fold (roundZ ((inject_Z a + inject_Z b) * 0.2)).
  rewrite (roundZ_comp _ (inject_Z (a + b) * 0.2))
    by (rewrite inject_Z_plus; reflexivity).
  rewrite round_fifth. unfold bundleZ.
  unfold Z.sub. rewrite !inject_Z_plus, inject_Z_opp. reflexivity.
Qed.

End EngineIsExact.

Section MonthlyPrice.

Local Open Scope Q_scope.

Lemma monthlyPrice_exact (d : PricingData) :
  valid_counts d = true ->
  num_eq (monthlyPrice (calculatePricing d)) (of_Z (monthlyZ d)).
Proof.
  intro V. unfold calculatePricing, monthlyZ.
  destruct (serviceType d =? "graphic")%string.
  { cbn [monthlyPrice]. rewrite (graphic_price_exact d V). simpl. reflexivity. }
  destruct (serviceType d =? "video")%string.
  { cbn [monthlyPrice]. rewrite (video_price_exact d V). simpl. reflexivity. }
  destruct (serviceType d =? "both")%string.
  { cbn [monthlyPrice].
    rewrite (graphic_price_exact d V), (video_price_exact d V).
    apply bundle_exact. }
  simpl. reflexivity.
Qed.

Lemma num_eq_of_Z (x : num) (z : Z) :
  num_eq x (of_Z z) -> exists q, x = Fin q /\ q == inject_Z z.
Proof.
  destruct x as [| | |q]; simpl; try contradiction.
  intro H. exists q. split; [reflexivity|exact H].
Qed.

Lemma num_le_of_Z (x y : num) (a b : Z) :
  num_eq x (of_Z a) -> num_eq y (of_Z b) -> (a <= b)%Z -> num_le x y.
Proof.
  intros Hx Hy L.
  apply num_eq_of_Z in Hx as (p & -> & Hp).
  apply num_eq_of_Z in Hy as (q & -> & Hq).
  simpl. rewrite Hp, Hq, <- Zle_Qle. exact L.
Qed.

Lemma is_integer_of_Z (x : num) (z : Z) :
  num_eq x (of_Z z) -> is_integer x = true.
Proof.
  intro H. apply num_eq_of_Z in H as ([n m] & -> & Hq).
  unfold Qeq, inject_Z in Hq. cbn [Qnum Qden] in Hq.
  cbn [is_integer Qnum Qden]. apply Z.eqb_eq.
  replace n with (z * Zpos m)%Z by lia. apply Z.mod_mul. lia.
Qed.

Lemma monthlyZ_floor (d : PricingData) :
  valid_service d = true -> (499 <= monthlyZ d)%Z.
Proof.
  intro S. pose proof (graphicPriceZ_floor d) as [G _].
  pose proof (videoPriceZ_floor d) as W. unfold monthlyZ.
  destruct (valid_service_cases d S) as [E | [E | E]];
    rewrite E; cbn [String.eqb Ascii.eqb Bool.eqb]; try lia.
  apply Z.le_trans with (bundleZ 1198); [discriminate|].
  apply bundleZ_mono. lia.
Qed.

(** The breakdown of a valid request never adds up to its price: the
    components stay at zero while the price is at least 499. *)
Lemma breakdown_sum_never_price (d : PricingData) :
  valid_request d = true ->
  breakdown_sum (breakdown (calculatePricing d)) = lit 0
  /\ num_eqb (breakdown_sum (breakdown (calculatePricing d)))
             (monthlyPrice (calculatePricing d)) = false.
Proof.
  unfold valid_request. rewrite andb_true_iff. intros [S V].
  rewrite breakdown_untouched. split; [reflexivity|].
  change (breakdown_sum (breakdown zeroResult)) with (lit 0).
  destruct (num_eq_of_Z _ _ (monthlyPrice_exact d V)) as (q & -> & Hq).
  pose proof (monthlyZ_floor d S) as F.
  unfold lit. cbn [num_eqb]. apply not_true_iff_false. intro H.
  apply Qeq_bool_iff in H. rewrite Hq in H.
  unfold Qeq, inject_Z in H. cbn [Qnum Qden] in H. lia.
Qed.

End MonthlyPrice.

(* ================================================================= *)
(** * Changing one field of a request *)

Section FieldUpdates.

Local Open Scope Q_scope.

Variable d : PricingData.

Lemma valid_counts_set_serviceType (s : string) :
  valid_counts (set_serviceType s d) = valid_counts d.
Proof. reflexivity. Qed.

Lemma valid_counts_set_count (f : CountField) (v : option string) :
  valid_counts d = true -> is_count (numberOr0 v) = true ->
  valid_counts (set_count f v d) = true.
Proof.
  unfold valid_counts, valid_graphic_counts, valid_video_counts.
  rewrite !andb_true_iff. intros H Hv.
  destruct f; cbn [set_count smDesigns banners brochures illustrations
                   packaging videoBasic videoMid videoAdvanced]; tauto.
Qed.

Lemma fieldQ_set_count (f g : CountField) (v : option string) :
  fieldQ f d <= countQ (numberOr0 v) ->
  fieldQ g d <= fieldQ g (set_count f v d).
Proof.
  intro H. destruct f, g; unfold fieldQ in *; cbn [get_count set_count
    smDesigns banners brochures illustrations packaging videoBasic videoMid
    videoAdvanced] in *; first [exact H | apply Qle_refl].
Qed.

End FieldUpdates.

Section Pointwise.

Local Open Scope Q_scope.

Variables d d' : PricingData.
Hypothesis fields_le : forall f, fieldQ f d <= fieldQ f d'.
Hypothesis same_service : serviceType d' = serviceType d.
Hypothesis same_bilingual : bilingual d' = bilingual d.
Hypothesis same_scripting : videoNeedsScripting d' = videoNeedsScripting d.
Hypothesis same_stock : videoNeedsStock d' = videoNeedsStock d.

Lemma graphicHoursQ_pointwise : graphicHoursQ d <= graphicHoursQ d'.
Proof.
  unfold graphicHoursQ.
  pose proof (fields_le SmDesigns). pose proof (fields_le Banners).
  pose proof (fields_le Brochures). pose proof (fields_le Illustrations).
  pose proof (fields_le Packaging). lra.
Qed.

Lemma videoHoursQ_pointwise : videoHoursQ d <= videoHoursQ d'.
Proof.
  unfold videoHoursQ, totalVideosQ. rewrite same_scripting, same_stock.
  pose proof (fields_le VideoBasic). pose proof (fields_le VideoMid).
  pose proof (fields_le VideoAdvanced).
  destruct (videoNeedsScripting d), (videoNeedsStock d); lra.
Qed.

Lemma monthlyZ_pointwise : (monthlyZ d <= monthlyZ d')%Z.
Proof.
  assert (G : (graphicPriceZ d <= graphicPriceZ d')%Z).
  { unfold graphicPriceZ. rewrite same_bilingual.
    apply roundZ_mono, graphicFinalQ_mono, graphicHoursQ_pointwise. }
  assert (W : (videoPriceZ d <= videoPriceZ d')%Z).
  { unfold videoPriceZ.
    apply roundZ_mono, videoFinalQ_mono, videoHoursQ_pointwise. }
  unfold monthlyZ. rewrite same_service.
  destruct (serviceType d =? "graphic")%string; [exact G|].
  destruct (serviceType d =? "video")%string; [exact W|].
  destruct (serviceType d =? "both")%string; [|lia].
  apply bundleZ_mono. lia.
Qed.

End Pointwise.

(* ================================================================= *)
(** * Counts within the limit

    With counts of at most [count_limit] the hours and the prices stay
    below 10^12, far inside the range in which binary64 holds every
    multiple of one half. *)

Section WithinLimit.

Local Open Scope Q_scope.

Lemma roundZ_upper (x : Q) (z : Z) :
  x + (1 # 2) <= inject_Z z -> (roundZ x <= z)%Z.
Proof.
  intro H. unfold roundZ. rewrite Zle_Qle.
  apply Qle_trans with (x + (1 # 2)); [apply Qfloor_le | exact H].
Qed.

Lemma graphicFinalQ_upper (h top : Q) (b : bool) :
  h <= top -> 55 <= top ->
  graphicFinalQ h b <= (499 + (top - 55) * 9) * 1.1.
Proof.
  intros H T. unfold graphicFinalQ.
  allotment_cases; destruct b; cbn [negb]; lra.
Qed.

Lemma videoFinalQ_upper (h top : Q) :
  h <= top -> 55 <= top -> videoFinalQ h <= 699 + (top - 55) * 12.
Proof.
  intros H T. unfold videoFinalQ. allotment_cases; cbn [negb]; lra.
Qed.

Variable d : PricingData.
Hypothesis V : valid_counts d = true.
Hypothesis B : counts_within_limit d = true.

Lemma field_within_limit (f : CountField) : fieldQ f d <= 1000000000.
Proof.
  assert (H : negb (gt (numberOr0 (get_count f d)) count_limit) = true).
  { revert B. unfold counts_within_limit. cbn [forallb].
    rewrite !andb_true_iff. destruct f; tauto. }
  rewrite (field_finite d V f) in H. unfold count_limit, lit in H.
  rewrite gt_Fin, negb_involutive in H. apply Qle_bool_iff. exact H.
Qed.

Lemma graphicHours_within_limit : graphicHoursQ d <= 15500000000.
Proof.
  unfold graphicHoursQ.
  pose proof (field_within_limit SmDesigns).
  pose proof (field_within_limit Banners).
  pose proof (field_within_limit Brochures).
  pose proof (field_within_limit Illustrations).
  pose proof (field_within_limit Packaging). lra.
Qed.

Lemma videoHours_within_limit : videoHoursQ d <= 23000000000.
Proof.
  unfold videoHoursQ, totalVideosQ.
  pose proof (field_within_limit VideoBasic).
  pose proof (field_within_limit VideoMid).
  pose proof (field_within_limit VideoAdvanced).
  pose proof (field_nonneg d V VideoBasic).
  pose proof (field_nonneg d V VideoMid).
  pose proof (field_nonneg d V VideoAdvanced).
  destruct (videoNeedsScripting d), (videoNeedsStock d); lra.
Qed.

Lemma graphicPriceZ_within_limit : (graphicPriceZ d <= 200000000000)%Z.
Proof.
  unfold graphicPriceZ. apply roundZ_upper.
  pose proof (graphicFinalQ_upper (graphicHoursQ d) 15500000000
                (bilingual d) graphicHours_within_limit ltac:(lra)) as U.
  change (inject_Z 200000000000) with 200000000000. lra.
Qed.

Lemma videoPriceZ_within_limit : (videoPriceZ d <= 300000000000)%Z.
Proof.
  unfold videoPriceZ. apply roundZ_upper.
  pose proof (videoFinalQ_upper (videoHoursQ d) 23000000000
                videoHours_within_limit ltac:(lra)) as U.
  change (inject_Z 300000000000) with 300000000000. lra.
Qed.

Lemma monthlyZ_within_limit : (monthlyZ d <= 1000000000000)%Z.
Proof.
  pose proof graphicPriceZ_within_limit as G.
  pose proof videoPriceZ_within_limit as W.
  pose proof (graphicPriceZ_floor d) as [G0 _].
  pose proof (videoPriceZ_floor d) as W0.
  unfold monthlyZ.
  destruct (serviceType d =? "graphic")%string; [lia|].
  destruct (serviceType d =? "video")%string; [lia|].
  destruct (serviceType d =? "both")%string; [|lia].
  unfold bundleZ.
  pose proof (Z.div_mod (2 * (graphicPriceZ d + videoPriceZ d) + 5) 10
                ltac:(lia)).
  pose proof (Z.mod_pos_bound (2 * (graphicPriceZ d + videoPriceZ d) + 5) 10
                ltac:(lia)).
  lia.
Qed.

End WithinLimit.

(* ================================================================= *)
(** * Properties of valid requests *)

(** C2.  With the same counts and flags, the price of the bundle is
    strictly below the price of the graphic package plus the price of the
    video package.  This holds for all non-negative integer counts of at
    most [count_limit], hence for nonzero ones. *)
Theorem bundle_cheaper_than_parts (d : PricingData) :
  valid_counts d = true ->
  counts_within_limit d = true ->
  num_lt (monthlyPrice (calculatePricing (set_serviceType "both" d)))
         (monthlyPrice (calculatePricing (set_serviceType "graphic" d))
          + monthlyPrice (calculatePricing (set_serviceType "video" d)))%js.
Proof.
  intros V _.
  pose proof (monthlyPrice_exact (set_serviceType "both" d) V) as B.
  change (monthlyZ (set_serviceType "both" d))
    with (bundleZ (graphicPriceZ d + videoPriceZ d)) in B.
  apply num_eq_of_Z in B as (q & -> & Hq).
  change (monthlyPrice (calculatePricing (set_serviceType "graphic" d)))
    with (price (computeGraphicPricing (set_serviceType "graphic" d))).
  change (monthlyPrice (calculatePricing (set_serviceType "video" d)))
    with (price (computeVideoPricing (set_serviceType "video" d))).
  rewrite (graphic_price_exact (set_serviceType "graphic" d) V).
  rewrite (video_price_exact (set_serviceType "video" d) V).
  change (graphicPriceZ (set_serviceType "graphic" d)) with (graphicPriceZ d).
  change (videoPriceZ (set_serviceType "video" d)) with (videoPriceZ d).
  unfold num_lt, of_Z. cbn [add]. apply gt_Fin_true.
  rewrite Hq, <- inject_Z_plus, <- Zlt_Qlt.
  apply bundleZ_saves.
  pose proof (graphicPriceZ_floor d) as [G _].
  pose proof (videoPriceZ_floor d). lia.
Qed.

Lemma bundle_cheaper_than_parts_witness :
  valid_counts bundleBusy = true
  /\ counts_within_limit bundleBusy = true
  /\ num_lt (monthlyPrice (calculatePricing (set_serviceType "both" bundleBusy)))
       (monthlyPrice (calculatePricing (set_serviceType "graphic" bundleBusy))
        + monthlyPrice (calculatePricing (set_serviceType "video" bundleBusy)))%js.
Proof.
  split; [reflexivity|]. split; [reflexivity|].
  apply (bundle_cheaper_than_parts bundleBusy); reflexivity.
Defined.

(** C3.  Raising one item count of a valid request to a larger
    non-negative integer, with every other field unchanged, never lowers
    the monthly price, the counts before and after being at most
    [count_limit]. *)
Theorem price_monotone_in_each_count
  (d : PricingData) (f : CountField) (v : option string) :
  valid_request d = true ->
  counts_within_limit d = true ->
  is_count (numberOr0 v) = true ->
  (numberOr0 v > count_limit)%js = false ->
  num_le (numberOr0 (get_count f d)) (numberOr0 v) ->
  num_le (monthlyPrice (calculatePricing d))
         (monthlyPrice (calculatePricing (set_count f v d))).
Proof.
  unfold valid_request. rewrite andb_true_iff. intros [_ V] _ Hv _ L.
  pose proof (valid_counts_set_count d f v V Hv) as V'.
  apply (num_le_of_Z _ _ (monthlyZ d) (monthlyZ (set_count f v d)));
    try (apply monthlyPrice_exact; assumption).
  apply monthlyZ_pointwise; try reflexivity.
  intro g. apply fieldQ_set_count.
  rewrite (field_finite d V f) in L.
  destruct (is_count_finite _ Hv) as [E _]. rewrite E in L. exact L.
Qed.

Lemma price_monotone_in_each_count_witness :
  valid_request bundleBusy = true
  /\ counts_within_limit bundleBusy = true
  /\ num_le (monthlyPrice (calculatePricing bundleBusy))
       (monthlyPrice
          (calculatePricing (set_count VideoMid (Some "7") bundleBusy))).
Proof.
  split; [reflexivity|]. split; [reflexivity|].
  apply (price_monotone_in_each_count bundleBusy VideoMid (Some "7"));
    [reflexivity | reflexivity | reflexivity | reflexivity
    | vm_compute; discriminate].
Defined.

(** C8.  The monthly price of a valid request with counts of at most
    [count_limit] is an integer and is at least the base price of its
    category: 499 for graphic, 699 for video and, for the bundle, the two
    base prices combined less the discount.  It is at most 10^12, inside
    the range in which binary64 holds every integer. *)
Theorem price_integer_at_least_base (d : PricingData) :
  valid_request d = true ->
  counts_within_limit d = true ->
  is_integer (monthlyPrice (calculatePricing d)) = true
  /\ num_le (categoryBase (serviceType d)) (monthlyPrice (calculatePricing d))
  /\ num_le (monthlyPrice (calculatePricing d)) (lit 1000000000000).
Proof.
  unfold valid_request. rewrite andb_true_iff. intros [S V] B.
  pose proof (monthlyPrice_exact d V) as M. split; [|split].
  - exact (is_integer_of_Z _ _ M).
  - pose proof (graphicPriceZ_floor d) as [G _].
    pose proof (videoPriceZ_floor d) as W.
    destruct (valid_service_cases d S) as [E | [E | E]];
      rewrite E; unfold monthlyZ in M; rewrite E in M; cbn [String.eqb] in M.
    + apply (num_le_of_Z _ _ 499 (graphicPriceZ d)); [reflexivity | exact M | exact G].
    + apply (num_le_of_Z _ _ 699 (videoPriceZ d)); [reflexivity | exact M | exact W].
    + apply (num_le_of_Z _ _ 958 (bundleZ (graphicPriceZ d + videoPriceZ d)));
        [vm_compute; reflexivity | exact M |].
      change 958%Z with (bundleZ 1198). apply bundleZ_mono. lia.
  - apply (num_le_of_Z _ _ (monthlyZ d) 1000000000000);
      [exact M | reflexivity | exact (monthlyZ_within_limit d V B)].
Qed.

Lemma price_integer_at_least_base_witness :
  valid_request bundleBusy = true
  /\ counts_within_limit bundleBusy = true
  /\ is_integer (monthlyPrice (calculatePricing bundleBusy)) = true
  /\ num_le (categoryBase "both") (monthlyPrice (calculatePricing bundleBusy))
  /\ num_le (monthlyPrice (calculatePricing bundleBusy)) (lit 1000000000000).
Proof.
  split; [reflexivity|]. split; [reflexivity|].
  apply (price_integer_at_least_base bundleBusy); reflexivity.
Defined.

(* ================================================================= *)
(** * The allotment threshold *)

Section Threshold.

Local Open Scope Q_scope.

Lemma gt_of_Z (a c : Z) : gt (of_Z a) (of_Z c) = (c <? a)%Z.
Proof.
  unfold of_Z. rewrite gt_Fin. unfold Qle_bool, inject_Z. cbn [Qnum Qden].
  rewrite !Z.mul_1_r. symmetry. apply Z.ltb_antisym.
Qed.

(** A half-integer above 55 is at least 55.5. *)
Lemma half_integer_step (h : Q) (N : Z) :
  2 * h == inject_Z N -> 55 < h -> 55.5 <= h.
Proof.
  intros E L.
  assert (L2 : inject_Z 110 < inject_Z N).
  { rewrite <- E. change (inject_Z 110) with 110. lra. }
  rewrite <- Zlt_Qlt in L2.
  assert (L3 : inject_Z 111 <= inject_Z N) by (rewrite <- Zle_Qle; lia).
  rewrite <- E in L3. change (inject_Z 111) with 111 in L3. lra.
Qed.

Variable d : PricingData.
Hypothesis V : valid_counts d = true.

Lemma graphicHours_half_integer :
  exists N : Z, 2 * graphicHoursQ d == inject_Z N.
Proof.
  destruct (field_integer d V SmDesigns) as (n1 & _ & E1).
  destruct (field_integer d V Banners) as (n2 & _ & E2).
  destruct (field_integer d V Brochures) as (n3 & _ & E3).
  destruct (field_integer d V Illustrations) as (n4 & _ & E4).
  destruct (field_integer d V Packaging) as (n5 & _ & E5).
  exists (2 * n1 + 3 * n2 + 10 * n3 + 6 * n4 + 10 * n5)%Z.
  unfold graphicHoursQ. rewrite E1, E2, E3, E4, E5.
  rewrite !inject_Z_plus, !inject_Z_mult.
  change (inject_Z 2) with 2. change (inject_Z 3) with 3.
  change (inject_Z 6) with 6. change (inject_Z 10) with 10. lra.
Qed.

Lemma videoHours_half_integer :
  exists N : Z, 2 * videoHoursQ d == inject_Z N.
Proof.
  destruct (field_integer d V VideoBasic) as (n1 & _ & E1).
  destruct (field_integer d V VideoMid) as (n2 & _ & E2).
  destruct (field_integer d V VideoAdvanced) as (n3 & _ & E3).
  exists (5 * n1 + 10 * n2 + 22 * n3
          + (if videoNeedsScripting d then 2 * (n1 + n2 + n3) else 0)
          + (if videoNeedsStock d then n1 + n2 + n3 else 0))%Z.
  unfold videoHoursQ, totalVideosQ.
  destruct (videoNeedsScripting d), (videoNeedsStock d);
    rewrite E1, E2, E3, !inject_Z_plus, !inject_Z_mult, ?inject_Z_plus;
    change (inject_Z 2) with 2; change (inject_Z 5) with 5;
    change (inject_Z 10) with 10; change (inject_Z 22) with 22;
    change (inject_Z 0) with 0; lra.
Qed.

Lemma graphicHours_nonneg : 0 <= graphicHoursQ d.
Proof.
  unfold graphicHoursQ.
  pose proof (field_nonneg d V SmDesigns). pose proof (field_nonneg d V Banners).
  pose proof (field_nonneg d V Brochures).
  pose proof (field_nonneg d V Illustrations).
  pose proof (field_nonneg d V Packaging). lra.
Qed.

(** Graphic branch: the rounded price is the floor price up to the
    allotment and strictly above it beyond. *)
Lemma graphicPriceZ_threshold :
  let floorZ := if bilingual d then 549%Z else 499%Z in
  (graphicHoursQ d <= 55 -> graphicPriceZ d = floorZ)
  /\ (55 < graphicHoursQ d -> (floorZ < graphicPriceZ d)%Z).
Proof.
  cbv zeta. unfold graphicPriceZ. split; intro H.
  - rewrite (graphicFinalQ_within _ _ H). destruct (bilingual d); reflexivity.
  - destruct graphicHours_half_integer as (N & E).
    pose proof (half_integer_step _ _ E H) as H2.
    rewrite (graphicFinalQ_over _ _ H). destruct (bilingual d).
    + apply Z.lt_le_trans with 554%Z; [lia|].
      change 554%Z with (roundZ 553.85). apply roundZ_mono. lra.
    + apply Z.lt_le_trans with 504%Z; [lia|].
      change 504%Z with (roundZ 503.5). apply roundZ_mono. lra.
Qed.

Lemma videoPriceZ_threshold :
  (videoHoursQ d <= 55 -> videoPriceZ d = 699%Z)
  /\ (55 < videoHoursQ d -> (699 < videoPriceZ d)%Z).
Proof.
  unfold videoPriceZ. split; intro H.
  - rewrite (videoFinalQ_within _ H). reflexivity.
  - destruct videoHours_half_integer as (N & E).
    pose proof (half_integer_step _ _ E H) as H2.
    rewrite (videoFinalQ_over _ H). apply Z.lt_le_trans with 705%Z; [lia|].
    change 705%Z with (roundZ 705). apply roundZ_mono. lra.
Qed.

End Threshold.

Section ZeroCounts.

Local Open Scope Q_scope.

Variable d : PricingData.
Hypothesis Z0 : all_counts_zero d = true.

Lemma all_counts_zero_fields (f : CountField) : fieldQ f d == 0.
Proof.
  assert (H : num_eqb (numberOr0 (get_count f d)) (lit 0) = true).
  { revert Z0. unfold all_counts_zero. cbn [forallb].
    rewrite !andb_true_iff. destruct f; tauto. }
  unfold fieldQ. destruct (numberOr0 (get_count f d)); try discriminate.
  apply Qeq_bool_iff. exact H.
Qed.

Lemma zero_graphic_hours : graphicHoursQ d <= 55.
Proof.
  unfold graphicHoursQ.
  rewrite !all_counts_zero_fields. lra.
Qed.

Lemma zero_video_hours : videoHoursQ d <= 55.
Proof.
  unfold videoHoursQ, totalVideosQ.
  destruct (videoNeedsScripting d), (videoNeedsStock d);
    rewrite !all_counts_zero_fields; lra.
Qed.

End ZeroCounts.

Example graphicFloor_values :
  graphicFloor false = lit 499 /\ graphicFloor true = lit 549.
Proof. split; reflexivity. Qed.

(** C4.  For a graphic request, and for a video request, whose total hours
    do not exceed the 55-hour allotment the monthly price is the base price
    of the category (499 or 699), with the bilingual surcharge applied to
    it in the graphic case (549 after rounding).  The overage enters the
    price exactly when the hours are strictly above the allotment: at 55
    hours the price is still the base price, above it the price is
    strictly higher.  With every count at zero the price is the base
    price. *)
Theorem base_price_within_allotment (d : PricingData) :
  valid_counts d = true ->
  (serviceType d = "graphic" ->
     let h := totalHours (getGraphicTotals d) in
     let p := monthlyPrice (calculatePricing d) in
     ((h > Base_Hours)%js = false -> p = graphicFloor (bilingual d))
     /\ ((h > Base_Hours)%js = true ->
         p = Math_round
               (let total := (Base_Price + (h - Base_Hours) * Extra_Hourly_Rate)%js in
                if bilingual d then (total * lit 1.1)%js else total))
     /\ (p > graphicFloor (bilingual d))%js = (h > Base_Hours)%js
     /\ (all_counts_zero d = true -> p = graphicFloor (bilingual d)))
  /\ (serviceType d = "video" ->
     let h := videoTotalHours d in
     let p := monthlyPrice (calculatePricing d) in
     ((h > videoBaseHours)%js = false -> p = videoBasePrice)
     /\ ((h > videoBaseHours)%js = true ->
         p = Math_round (videoBasePrice + (h - videoBaseHours) * videoExtraRate)%js)
     /\ (p > videoBasePrice)%js = (h > videoBaseHours)%js
     /\ (all_counts_zero d = true -> p = videoBasePrice)).
Proof.
  intro V. split; intro S; cbv zeta.
  - destruct (calculatePricing_graphic d S) as [-> _].
    rewrite (graphic_price_exact d V), (totalHours_exact d V).
    destruct (graphicPriceZ_threshold d V) as [W O]. cbv zeta in W, O.
    unfold Base_Hours, lit.
    assert (F : graphicFloor (bilingual d)
                = of_Z (if bilingual d then 549%Z else 499%Z))
      by (destruct (bilingual d); reflexivity).
    rewrite F. repeat split.
    + intro H. apply gt_Fin_false in H. rewrite (W H). reflexivity.
    + intro H. apply gt_Fin_true in H. unfold graphicPriceZ.
      rewrite (graphicFinalQ_over _ _ H).
      destruct (bilingual d); reflexivity.
    + rewrite gt_of_Z. destruct (gt (Fin (graphicHoursQ d)) (Fin 55)) eqn:G.
      * apply gt_Fin_true in G. apply Z.ltb_lt. exact (O G).
      * apply gt_Fin_false in G. rewrite (W G). apply Z.ltb_irrefl.
    + intro Z0. rewrite (W (zero_graphic_hours d Z0)). reflexivity.
  - destruct (calculatePricing_video d S) as [-> _].
    rewrite (video_price_exact d V), (videoTotalHours_exact d V).
    destruct (videoPriceZ_threshold d V) as [W O].
    unfold videoBaseHours, videoBasePrice, lit. repeat split.
    + intro H. apply gt_Fin_false in H. rewrite (W H). reflexivity.
    + intro H. apply gt_Fin_true in H. unfold videoPriceZ.
      rewrite (videoFinalQ_over _ H). reflexivity.
    + change (Fin 699) with (of_Z 699). rewrite gt_of_Z.
      destruct (gt (Fin (videoHoursQ d)) (Fin 55)) eqn:G.
      * apply gt_Fin_true in G. apply Z.ltb_lt. exact (O G).
      * apply gt_Fin_false in G. rewrite (W G). apply Z.ltb_irrefl.
    + intro Z0. rewrite (W (zero_video_hours d Z0)). reflexivity.
Qed.

Lemma base_price_within_allotment_witness :
  valid_counts graphicZero = true
  /\ monthlyPrice (calculatePricing graphicZero) = lit 499.
Proof.
  split; [reflexivity|].
  destruct (base_price_within_allotment graphicZero) as [G _]; [reflexivity|].
  destruct (G eq_refl) as (_ & _ & _ & Z0). exact (Z0 eq_refl).
Defined.

(* ================================================================= *)
(** * Order of the bilingual surcharge *)

(** C5.  In the graphic branch with the bilingual flag set, the value that
    is rounded into the price is the base price plus the overage, the whole
    multiplied by 1.1: (499 + max(0, hours - 55) * 9) * 1.1.  It holds for
    every request whose graphic hours are a number, and the monthly price
    of a graphic request is that value rounded. *)
Theorem bilingual_multiplies_running_total (d : PricingData) :
  bilingual d = true ->
  is_NaN (totalHours (getGraphicTotals d)) = false ->
  num_eq (graphicFinalPrice d)
         ((Base_Price
           + Math_max (lit 0) (totalHours (getGraphicTotals d) - Base_Hours)
             * Extra_Hourly_Rate) * lit 1.1)%js
  /\ price (computeGraphicPricing d) = Math_round (graphicFinalPrice d)
  /\ (serviceType d = "graphic" ->
      monthlyPrice (calculatePricing d) = Math_round (graphicFinalPrice d)).
Proof.
  intros B N. split; [|split].
  - unfold graphicFinalPrice. rewrite B.
    destruct (totalHours (getGraphicTotals d)) as [| | |h];
      try discriminate; try exact I.
    + simpl. lra.
    + unfold Base_Hours, Base_Price, Extra_Hourly_Rate, lit.
      cbn [sub neg add Math_max].
      rewrite !gt_Fin.
      allotment_cases; cbn [negb add mul num_eq]; lra.
  - reflexivity.
  - intro S. apply (calculatePricing_graphic d S).
Qed.

Lemma bilingual_multiplies_running_total_witness :
  let d := set_serviceType "graphic" bundleBusy in
  bilingual d = true
  /\ is_NaN (totalHours (getGraphicTotals d)) = false
  /\ num_eq (graphicFinalPrice d) (lit 692.45)
  /\ monthlyPrice (calculatePricing d) = lit 692.
Proof.
  cbv zeta. split; [reflexivity|]. split; [reflexivity|].
  destruct (bilingual_multiplies_running_total
              (set_serviceType "graphic" bundleBusy) eq_refl eq_refl)
    as (E & _ & M).
  split; [|rewrite (M eq_refl); reflexivity].
  vm_compute. reflexivity.
Defined.

(* ================================================================= *)
(** * Conversion of the count fields *)

Section Numerals.











End Numerals.




(* ================================================================= *)
(** * The video request with 15 basic edits *)

(** C9 (as stated, it fails).  Fifteen basic edits take 37.5 hours, which
    is not above the 55-hour allotment. *)
Lemma video15_hours_within_allotment :
  estimatedHours (calculatePricing video15) = lit 37.5
  /\ ~ (estimatedHours (calculatePricing video15) > videoBaseHours)%js = true.
Proof. split; [reflexivity|]. vm_compute. discriminate. Qed.

(** C9 (as the code has it).  For the video request with 15 basic edits,
    no other count and no flag, the hours are 37.5 and within the
    allotment, the excess is zero and the price is the base price 699, and
    the included lines are the package line and the line counting the 15
    videos. *)
Theorem video15_quote :
  estimatedHours (calculatePricing video15) = lit 37.5
  /\ (estimatedHours (calculatePricing video15) > videoBaseHours)%js = false
  /\ monthlyPrice (calculatePricing video15) = videoBasePrice
  /\ num_eq (monthlyPrice (calculatePricing video15))
       (videoBasePrice
        + Math_max (lit 0)
            (estimatedHours (calculatePricing video15) - videoBaseHours)
          * videoExtraRate)%js
  /\ includes (calculatePricing video15)
     = ["Video Editing Package";
        "15 videos/month (mix of basic, mid-level, advanced)"].
Proof. repeat split; reflexivity. Qed.
